(** * Demographic models of divergence for the dadi fits (JPA / JTR)

    A shallow embedding of [demographic_models.py] (the thirteen
    two-population divergence models) and of the fitting script
    [JPA_JTR_PAMex_folded.py], together with the properties of the
    epoch composition that the written specification states.

    Conventions of the embedding.

    - Python floats are modelled by the real numbers of the Standard
      Library ([numpy.exp] is [exp], [numpy.log] is [ln]); rounding is not
      modelled, and no property below rests on an identity of the reals
      that rounding breaks: the one arithmetic fact used of the growth
      closure is that it is 1 at time 0, for a positive final size and a
      non-zero duration.  Python integers are [Z].
    - The dadi library is not part of the repository.  Each call into it
      is an operation of a program tree ([Prog]); a handler supplies the
      library's answers.  A model function is therefore the exact sequence
      of library calls the Python function issues, and a property of "what
      the model asks of the engine" is a property of that tree.
    - A failed tuple unpacking ([a, b, c = params]) is the [ValueError]
      Python raises. *)

From Stdlib Require Import Reals Lra Lia List ZArith String Bool.
Import ListNotations.

Set Implicit Arguments.
Local Open Scope R_scope.

(** ** Python values and errors *)

(** The two messages of a failed sequence unpacking in Python 2:
    "too many values to unpack" and "need more than [n] values to unpack"
    ([n] being the number of values the sequence had). *)
Inductive PyError : Type :=
| ValueError_too_many
| ValueError_need_more (n : nat).

Definition unpack_error {X : Type} (expected : nat) (l : list X) : PyError :=
  if Nat.ltb (List.length l) expected
  then ValueError_need_more (List.length l)
  else ValueError_too_many.

(** ** Programs over an interface of external calls *)

Section Program.

Context {Op : Type} {response : Op -> Type}.

Inductive Prog (A : Type) : Type :=
| Ret (a : A)
| Raise (e : PyError)
| Call (op : Op) (k : response op -> Prog A).

Arguments Ret {A} a.
Arguments Raise {A} e.
Arguments Call {A} op k.

Fixpoint bind {A B : Type} (p : Prog A) (f : A -> Prog B) : Prog B :=
  match p with
  | Ret a => f a
  | Raise e => Raise e
  | Call op k => Call op (fun r => bind (k r) f)
  end.

Definition call (op : Op) : Prog (response op) := Call op Ret.

(** A handler answers every call: the external library as a family of
    functions of the call's arguments. *)
Definition Handler : Type := forall op : Op, response op.

Fixpoint run {A : Type} (h : Handler) (p : Prog A) : PyError + A :=
  match p with
  | Ret a => inr a
  | Raise e => inl e
  | Call op k => run h (k (h op))
  end.

(** The calls a program issues, in order, when the library answers with [h]. *)
Fixpoint trace {A : Type} (h : Handler) (p : Prog A) : list Op :=
  match p with
  | Ret _ => []
  | Raise _ => []
  | Call op k => op :: trace h (k (h op))
  end.

End Program.

Arguments Ret {Op response A} a.
Arguments Raise {Op response A} e.
Arguments Call {Op response A} op k.

Notation "x <- c ;; k" := (bind c (fun x => k))
  (at level 61, c at next level, right associativity).

(** ** The numerical engine (dadi) as an interface *)

(** A population size handed to [dadi.Integration.two_pops]: a number, or a
    function of the time elapsed within the epoch (a Python closure). *)
Inductive Size : Type :=
| Const (nu : R)
| Func (f : R -> R).

(** How the engine reads a size at time [t]. *)
Definition size_at (s : Size) (t : R) : R :=
  match s with
  | Const nu => nu
  | Func f => f t
  end.

Section Engine.

(** The engine's arrays: the grid [xx], the density [phi] (one- or
    two-dimensional, the Python variable is the same) and the spectrum. *)
Context {Grid Phi Spectrum : Type}.

Inductive EngineOp : Type :=
| default_grid (pts : Z)
| phi_1D (xx : Grid)
| phi_1D_to_2D (xx : Grid) (phi : Phi)
| two_pops (phi : Phi) (xx : Grid) (T : R) (nu1 nu2 : Size) (m12 m21 : R)
| from_phi (phi : Phi) (ns : Z * Z) (xxs : Grid * Grid).

Definition engine_ret (op : EngineOp) : Type :=
  match op with
  | default_grid _ => Grid
  | phi_1D _ => Phi
  | phi_1D_to_2D _ _ => Phi
  | two_pops _ _ _ _ _ _ _ => Phi
  | from_phi _ _ _ => Spectrum
  end.

Definition Model : Type := Prog (response := engine_ret) Spectrum.

Definition Engine : Type := Handler (response := engine_ret).

(** One call into the dadi library. *)
Definition dadi (op : EngineOp) : Prog (response := engine_ret) (engine_ret op) :=
  call op.

(** ** Strict Isolation models (SI) *)

(** Model with split and strict isolation. *)
Definition SI (params : list R) (ns : list Z) (pts : Z) : Model :=
  match ns with
  | [n1; n2] =>
    match params with
    | [nu1; nu2; Ts] =>
      xx <- dadi (default_grid pts) ;;
      phi <- dadi (phi_1D xx) ;;
      phi <- dadi (phi_1D_to_2D xx phi) ;;
      phi <- dadi (two_pops phi xx Ts (Const nu1) (Const nu2) 0 0) ;;
      fs <- dadi (from_phi phi (n1, n2) (xx, xx)) ;;
      Ret fs
    | _ => Raise (unpack_error 3 params)
    end
  | _ => Raise (unpack_error 2 ns)
  end.

(** Model with split and strict isolation; exponential growth. *)
Definition SIex (params : list R) (ns : list Z) (pts : Z) : Model :=
  match ns with
  | [n1; n2] =>
    match params with
    | [nu1a; nu2a; nu1; nu2; Ts; Te] =>
      xx <- dadi (default_grid pts) ;;
      phi <- dadi (phi_1D xx) ;;
      phi <- dadi (phi_1D_to_2D xx phi) ;;
      phi <- dadi (two_pops phi xx Ts (Const nu1a) (Const nu2a) 0 0) ;;
      let nu1_func := fun t => exp (ln nu1 * t / Te) in
      let nu2_func := fun t => exp (ln nu2 * t / Te) in
      phi <- dadi (two_pops phi xx Te (Func nu1_func) (Func nu2_func) 0 0) ;;
      fs <- dadi (from_phi phi (n1, n2) (xx, xx)) ;;
      Ret fs
    | _ => Raise (unpack_error 6 params)
    end
  | _ => Raise (unpack_error 2 ns)
  end.

(** Model with split, strict isolation and a bottleneck; exponential growth. *)
Definition SIbo (params : list R) (ns : list Z) (pts : Z) : Model :=
  match ns with
  | [n1; n2] =>
    match params with
    | [nu1a; nu2a; nu1B; nu2B; nu1; nu2; Ts; TB; Te] =>
      xx <- dadi (default_grid pts) ;;
      phi <- dadi (phi_1D xx) ;;
      phi <- dadi (phi_1D_to_2D xx phi) ;;
      phi <- dadi (two_pops phi xx Ts (Const nu1a) (Const nu2a) 0 0) ;;
      phi <- dadi (two_pops phi xx TB (Const nu1B) (Const nu2B) 0 0) ;;
      let nu1_func := fun t => exp (ln nu1 * t / Te) in
      let nu2_func := fun t => exp (ln nu2 * t / Te) in
      phi <- dadi (two_pops phi xx Te (Func nu1_func) (Func nu2_func) 0 0) ;;
      fs <- dadi (from_phi phi (n1, n2) (xx, xx)) ;;
      Ret fs
    | _ => Raise (unpack_error 9 params)
    end
  | _ => Raise (unpack_error 2 ns)
  end.

(** ** Isolation with Migration models (IM) *)

(** Model with continuous migration. *)
Definition IM (params : list R) (ns : list Z) (pts : Z) : Model :=
  match ns with
  | [n1; n2] =>
    match params with
    | [nu1; nu2; m12; m21; Ts] =>
      xx <- dadi (default_grid pts) ;;
      phi <- dadi (phi_1D xx) ;;
      phi <- dadi (phi_1D_to_2D xx phi) ;;
      phi <- dadi (two_pops phi xx Ts (Const nu1) (Const nu2) m12 m21) ;;
      fs <- dadi (from_phi phi (n1, n2) (xx, xx)) ;;
      Ret fs
    | _ => Raise (unpack_error 5 params)
    end
  | _ => Raise (unpack_error 2 ns)
  end.

(** Model with continuous migration; exponential growth. *)
Definition IMex (params : list R) (ns : list Z) (pts : Z) : Model :=
  match ns with
  | [n1; n2] =>
    match params with
    | [nu1a; nu2a; nu1; nu2; m12; m21; Ts; Te] =>
      xx <- dadi (default_grid pts) ;;
      phi <- dadi (phi_1D xx) ;;
      phi <- dadi (phi_1D_to_2D xx phi) ;;
      phi <- dadi (two_pops phi xx Ts (Const nu1a) (Const nu2a) m12 m21) ;;
      let nu1_func := fun t => exp (ln nu1 * t / Te) in
      let nu2_func := fun t => exp (ln nu2 * t / Te) in
      phi <- dadi (two_pops phi xx Te (Func nu1_func) (Func nu2_func) m12 m21) ;;
      fs <- dadi (from_phi phi (n1, n2) (xx, xx)) ;;
      Ret fs
    | _ => Raise (unpack_error 8 params)
    end
  | _ => Raise (unpack_error 2 ns)
  end.

(** ** Secondary Contact (SC) *)

(** Model with split, strict isolation, and secondary contact. *)
Definition SC (params : list R) (ns : list Z) (pts : Z) : Model :=
  match ns with
  | [n1; n2] =>
    match params with
    | [nu1; nu2; m12; m21; Ts; Tsc] =>
      xx <- dadi (default_grid pts) ;;
      phi <- dadi (phi_1D xx) ;;
      phi <- dadi (phi_1D_to_2D xx phi) ;;
      phi <- dadi (two_pops phi xx Ts (Const nu1) (Const nu2) 0 0) ;;
      phi <- dadi (two_pops phi xx Tsc (Const nu1) (Const nu2) m12 m21) ;;
      fs <- dadi (from_phi phi (n1, n2) (xx, xx)) ;;
      Ret fs
    | _ => Raise (unpack_error 6 params)
    end
  | _ => Raise (unpack_error 2 ns)
  end.

(** Model with split, strict isolation, and secondary contact; exponential
    growth. *)
Definition SCex (params : list R) (ns : list Z) (pts : Z) : Model :=
  match ns with
  | [n1; n2] =>
    match params with
    | [nu1a; nu2a; nu1; nu2; m12; m21; Ts; Tsc; Te] =>
      xx <- dadi (default_grid pts) ;;
      phi <- dadi (phi_1D xx) ;;
      phi <- dadi (phi_1D_to_2D xx phi) ;;
      phi <- dadi (two_pops phi xx Ts (Const nu1a) (Const nu2a) 0 0) ;;
      phi <- dadi (two_pops phi xx Tsc (Const nu1a) (Const nu2a) m12 m21) ;;
      let nu1_func := fun t => exp (ln nu1 * t / Te) in
      let nu2_func := fun t => exp (ln nu2 * t / Te) in
      phi <- dadi (two_pops phi xx Te (Func nu1_func) (Func nu2_func) m12 m21) ;;
      fs <- dadi (from_phi phi (n1, n2) (xx, xx)) ;;
      Ret fs
    | _ => Raise (unpack_error 9 params)
    end
  | _ => Raise (unpack_error 2 ns)
  end.

(** ** Ancient Migration (AM) *)

(** Model with split, ancient migration. *)
Definition AM (params : list R) (ns : list Z) (pts : Z) : Model :=
  match ns with
  | [n1; n2] =>
    match params with
    | [nu1; nu2; m12; m21; Tam; Ts] =>
      xx <- dadi (default_grid pts) ;;
      phi <- dadi (phi_1D xx) ;;
      phi <- dadi (phi_1D_to_2D xx phi) ;;
      phi <- dadi (two_pops phi xx Tam (Const nu1) (Const nu2) m12 m21) ;;
      phi <- dadi (two_pops phi xx Ts (Const nu1) (Const nu2) 0 0) ;;
      fs <- dadi (from_phi phi (n1, n2) (xx, xx)) ;;
      Ret fs
    | _ => Raise (unpack_error 6 params)
    end
  | _ => Raise (unpack_error 2 ns)
  end.

(** Model with split, ancient migration; exponential growth. *)
Definition AMex (params : list R) (ns : list Z) (pts : Z) : Model :=
  match ns with
  | [n1; n2] =>
    match params with
    | [nu1a; nu2a; nu1; nu2; m12; m21; Tam; Ts; Te] =>
      xx <- dadi (default_grid pts) ;;
      phi <- dadi (phi_1D xx) ;;
      phi <- dadi (phi_1D_to_2D xx phi) ;;
      phi <- dadi (two_pops phi xx Tam (Const nu1a) (Const nu2a) m12 m21) ;;
      phi <- dadi (two_pops phi xx Ts (Const nu1a) (Const nu2a) 0 0) ;;
      let nu1_func := fun t => exp (ln nu1 * t / Te) in
      let nu2_func := fun t => exp (ln nu2 * t / Te) in
      phi <- dadi (two_pops phi xx Te (Func nu1_func) (Func nu2_func) 0 0) ;;
      fs <- dadi (from_phi phi (n1, n2) (xx, xx)) ;;
      Ret fs
    | _ => Raise (unpack_error 9 params)
    end
  | _ => Raise (unpack_error 2 ns)
  end.

(** ** Periodic Secondary Contact (PSC) *)

(** Model with split, strict isolation, and two periods of secondary contact. *)
Definition PSC (params : list R) (ns : list Z) (pts : Z) : Model :=
  match ns with
  | [n1; n2] =>
    match params with
    | [nu1; nu2; m12; m21; Ts; Tsc] =>
      xx <- dadi (default_grid pts) ;;
      phi <- dadi (phi_1D xx) ;;
      phi <- dadi (phi_1D_to_2D xx phi) ;;
      phi <- dadi (two_pops phi xx Ts (Const nu1) (Const nu2) 0 0) ;;
      phi <- dadi (two_pops phi xx Tsc (Const nu1) (Const nu2) m12 m21) ;;
      phi <- dadi (two_pops phi xx Ts (Const nu1) (Const nu2) 0 0) ;;
      phi <- dadi (two_pops phi xx Tsc (Const nu1) (Const nu2) m12 m21) ;;
      fs <- dadi (from_phi phi (n1, n2) (xx, xx)) ;;
      Ret fs
    | _ => Raise (unpack_error 6 params)
    end
  | _ => Raise (unpack_error 2 ns)
  end.

(** Model with split, strict isolation, and two periods of secondary contact;
    exponential growth. *)
Definition PSCex (params : list R) (ns : list Z) (pts : Z) : Model :=
  match ns with
  | [n1; n2] =>
    match params with
    | [nu1a; nu2a; nu1; nu2; m12; m21; Ts; Tsc; Te] =>
      xx <- dadi (default_grid pts) ;;
      phi <- dadi (phi_1D xx) ;;
      phi <- dadi (phi_1D_to_2D xx phi) ;;
      phi <- dadi (two_pops phi xx Ts (Const nu1a) (Const nu2a) 0 0) ;;
      phi <- dadi (two_pops phi xx Tsc (Const nu1a) (Const nu2a) m12 m21) ;;
      phi <- dadi (two_pops phi xx Ts (Const nu1a) (Const nu2a) 0 0) ;;
      phi <- dadi (two_pops phi xx Tsc (Const nu1a) (Const nu2a) m12 m21) ;;
      let nu1_func := fun t => exp (ln nu1 * t / Te) in
      let nu2_func := fun t => exp (ln nu2 * t / Te) in
      phi <- dadi (two_pops phi xx Te (Func nu1_func) (Func nu2_func) m12 m21) ;;
      fs <- dadi (from_phi phi (n1, n2) (xx, xx)) ;;
      Ret fs
    | _ => Raise (unpack_error 9 params)
    end
  | _ => Raise (unpack_error 2 ns)
  end.

(** ** Periodic Ancient Migration (PAM) *)

(** Model with split, two periods of ancient migration. *)
Definition PAM (params : list R) (ns : list Z) (pts : Z) : Model :=
  match ns with
  | [n1; n2] =>
    match params with
    | [nu1; nu2; m12; m21; Tam; Ts] =>
      xx <- dadi (default_grid pts) ;;
      phi <- dadi (phi_1D xx) ;;
      phi <- dadi (phi_1D_to_2D xx phi) ;;
      phi <- dadi (two_pops phi xx Tam (Const nu1) (Const nu2) m12 m21) ;;
      phi <- dadi (two_pops phi xx Ts (Const nu1) (Const nu2) 0 0) ;;
      phi <- dadi (two_pops phi xx Tam (Const nu1) (Const nu2) m12 m21) ;;
      phi <- dadi (two_pops phi xx Ts (Const nu1) (Const nu2) 0 0) ;;
      fs <- dadi (from_phi phi (n1, n2) (xx, xx)) ;;
      Ret fs
    | _ => Raise (unpack_error 6 params)
    end
  | _ => Raise (unpack_error 2 ns)
  end.

(** Model with split, two periods of ancient migration; exponential growth. *)
Definition PAMex (params : list R) (ns : list Z) (pts : Z) : Model :=
  match ns with
  | [n1; n2] =>
    match params with
    | [nu1a; nu2a; nu1; nu2; m12; m21; Tam; Ts; Te] =>
      xx <- dadi (default_grid pts) ;;
      phi <- dadi (phi_1D xx) ;;
      phi <- dadi (phi_1D_to_2D xx phi) ;;
      phi <- dadi (two_pops phi xx Tam (Const nu1a) (Const nu2a) m12 m21) ;;
      phi <- dadi (two_pops phi xx Ts (Const nu1a) (Const nu2a) 0 0) ;;
      phi <- dadi (two_pops phi xx Tam (Const nu1a) (Const nu2a) m12 m21) ;;
      phi <- dadi (two_pops phi xx Ts (Const nu1a) (Const nu2a) 0 0) ;;
      let nu1_func := fun t => exp (ln nu1 * t / Te) in
      let nu2_func := fun t => exp (ln nu2 * t / Te) in
      phi <- dadi (two_pops phi xx Te (Func nu1_func) (Func nu2_func) 0 0) ;;
      fs <- dadi (from_phi phi (n1, n2) (xx, xx)) ;;
      Ret fs
    | _ => Raise (unpack_error 9 params)
    end
  | _ => Raise (unpack_error 2 ns)
  end.

(** ** The models as a family *)

Inductive ModelName : Type :=
| M_SI | M_SIex | M_SIbo
| M_IM | M_IMex
| M_SC | M_SCex
| M_AM | M_AMex
| M_PSC | M_PSCex
| M_PAM | M_PAMex.

Definition model_fn (m : ModelName) : list R -> list Z -> Z -> Model :=
  match m with
  | M_SI => SI | M_SIex => SIex | M_SIbo => SIbo
  | M_IM => IM | M_IMex => IMex
  | M_SC => SC | M_SCex => SCex
  | M_AM => AM | M_AMex => AMex
  | M_PSC => PSC | M_PSCex => PSCex
  | M_PAM => PAM | M_PAMex => PAMex
  end.

(** The number of names on the left of [... = params] in each function. *)
Definition arity (m : ModelName) : nat :=
  match m with
  | M_SI => 3
  | M_IM => 5
  | M_SC | M_AM | M_PSC | M_PAM => 6
  | M_SIex => 6
  | M_IMex => 8
  | M_SIbo | M_SCex | M_AMex | M_PSCex | M_PAMex => 9
  end%nat.

(** ** Reading a trace of engine calls *)

(** What one [two_pops] call asks for, the density and the grid left out. *)
Record Epoch : Type := mkEpoch {
  duration : R;
  size1 : Size;
  size2 : Size;
  mig12 : R;
  mig21 : R
}.

Definition is_two_pops (op : EngineOp) : bool :=
  match op with
  | two_pops _ _ _ _ _ _ _ => true
  | _ => false
  end.

(** The [two_pops] calls of a trace, in order. *)
Definition advances (t : list EngineOp) : list EngineOp :=
  filter is_two_pops t.

Definition epoch_of (op : EngineOp) : option Epoch :=
  match op with
  | two_pops _ _ T nu1 nu2 m12 m21 => Some (mkEpoch T nu1 nu2 m12 m21)
  | _ => None
  end.

Fixpoint epochs (t : list EngineOp) : list Epoch :=
  match t with
  | [] => []
  | op :: t' =>
    match epoch_of op with
    | Some e => e :: epochs t'
    | None => epochs t'
    end
  end.

(** The last epoch of a model: the growth epoch of the [ex] and [bo]
    variants. *)
Definition last_epoch (t : list EngineOp) : option Epoch :=
  last (map Some (epochs t)) None.

(** The epoch before the last one. *)
Definition previous_epoch (t : list EngineOp) : option Epoch :=
  last (map Some (removelast (epochs t))) None.

End Engine.

(** ** The growth trajectory *)

(** The closure [lambda t: numpy.exp(numpy.log(nu) * t/Te)] as a function of
    the two variables it captures. *)
Definition nu_func (nu Te : R) : R -> R :=
  fun t => exp (ln nu * t / Te).

(** The growth form as the specification words it:
    size(t) = start * (end/start)^(t/duration). *)
Definition exponential_interpolation (start final duration : R) : R -> R :=
  fun t => start * Rpower (final / start) (t / duration).

(** ** The fitting script [JPA_JTR_PAMex_folded.py] *)

(** What a Python 2 [print] statement is given. *)
Inductive PyVal : Type :=
| VStr (s : string)
| VFloat (x : R)
| VRepr (l : list R).

Section Fit.

Context {Grid Phi Spectrum DataDict ExtrapFunc : Type}.

Definition ModelFn : Type :=
  list R -> list Z -> Z -> Model (Grid := Grid) (Phi := Phi) (Spectrum := Spectrum).

(** The calls the script makes into dadi and pylab. *)
Inductive ScriptOp : Type :=
| make_data_dict (filename : string)
| from_data_dict (dd : DataDict) (pop_ids : list string)
    (projections : list Z) (polarized : bool)
| sample_sizes (fs : Spectrum)
| make_extrap_log_func (func : ModelFn)
| perturb_params (p0 : list R) (fold : Z) (upper_bound lower_bound : list R)
| print (args : list PyVal)
| optimize_log (p0 : list R) (data : Spectrum) (func_ex : ExtrapFunc)
    (pts_l : list Z) (lower_bound upper_bound : list R) (verbose maxiter : Z)
| apply_func_ex (func_ex : ExtrapFunc) (popt : list R) (ns : list Z)
    (pts_l : list Z)
| ll_multinom (model data : Spectrum)
| optimal_sfs_scaling (model data : Spectrum)
| pylab_figure (num : Z)
| plot_2d_comp_multinom (model data : Spectrum) (vmin resid_range : Z)
    (pop_ids : list string)
| pylab_show.

Definition script_ret (op : ScriptOp) : Type :=
  match op with
  | make_data_dict _ => DataDict
  | from_data_dict _ _ _ _ => Spectrum
  | sample_sizes _ => list Z
  | make_extrap_log_func _ => ExtrapFunc
  | perturb_params _ _ _ _ => list R
  | print _ => unit
  | optimize_log _ _ _ _ _ _ _ _ => list R
  | apply_func_ex _ _ _ _ => Spectrum
  | ll_multinom _ _ => R
  | optimal_sfs_scaling _ _ => R
  | pylab_figure _ => unit
  | plot_2d_comp_multinom _ _ _ _ _ => unit
  | pylab_show => unit
  end.

Definition Library : Type := Handler (response := script_ret).

Definition py (op : ScriptOp) : Prog (response := script_ret) (script_ret op) :=
  call op.

(** These are the grid point settings used for extrapolation. *)
Definition pts_l : list Z := [60; 50]%Z.

Definition func : ModelFn := PAMex.

Definition upper_bound : list R := [100; 100; 100; 100; 20; 20; 12; 12; 12].
Definition lower_bound : list R := [1/100; 1/100; 1/100; 1/100; 0; 0; 0; 0; 0].

Definition params : list string :=
  ["nu1a"; "nu2a"; "nu1"; "nu2"; "m12"; "m21"; "Tam"; "Ts"; "Te"]%string.

Definition p0 : list R := [1; 1; 1; 1; 1; 1; 1; 1; 1].

(** [AIC = 2*len(params)-2*ll_opt]: an integer product, then a float
    difference. *)
Definition AIC (ll_opt : R) : R :=
  IZR (2 * Z.of_nat (List.length params)) - 2 * ll_opt.

Definition main : Prog (response := script_ret) unit :=
  dd <- py (make_data_dict "dadi_input_JPA_JTR.tsv") ;;
  data <- py (from_data_dict dd ["JPA"; "JTR"]%string [49; 41]%Z false) ;;
  ns <- py (sample_sizes data) ;;
  func_ex <- py (make_extrap_log_func func) ;;
  p0 <- py (perturb_params p0 1 upper_bound lower_bound) ;;
  _ <- py (print [VStr "Beginning optimization ************************************************"]) ;;
  popt <- py (optimize_log p0 data func_ex pts_l lower_bound upper_bound
                (Z.of_nat (List.length p0)) 10) ;;
  _ <- py (print [VStr "Finished optimization **************************************************"]) ;;
  model <- py (apply_func_ex func_ex popt ns pts_l) ;;
  ll_opt <- py (ll_multinom model data) ;;
  theta <- py (optimal_sfs_scaling model data) ;;
  let AIC := AIC ll_opt in
  _ <- py (print [VStr "Optimized parameters"; VRepr popt]) ;;
  _ <- py (print [VStr "Optimized log-likelihood:"; VFloat ll_opt]) ;;
  _ <- py (print [VStr "theta:"; VFloat theta]) ;;
  _ <- py (print [VStr "AIC:"; VFloat AIC]) ;;
  _ <- py (pylab_figure 1) ;;
  _ <- py (plot_2d_comp_multinom model data 1 3 ["JPA"; "JTR"]%string) ;;
  _ <- py pylab_show ;;
  Ret tt.

(** ** Reading a trace of the script *)

(** The grid lists the script hands to the extrapolated model: the
    [pts_l] argument of [optimize_log] and of the call of [func_ex]. *)
Fixpoint grid_lists (t : list ScriptOp) : list (list Z) :=
  match t with
  | [] => []
  | optimize_log _ _ _ l _ _ _ _ :: t' => l :: grid_lists t'
  | apply_func_ex _ _ _ l :: t' => l :: grid_lists t'
  | _ :: t' => grid_lists t'
  end.

(** The number printed after the label [label]. *)
Fixpoint reported (label : string) (t : list ScriptOp) : option R :=
  match t with
  | [] => None
  | print [VStr s; VFloat x] :: t' =>
    if String.eqb s label then Some x else reported label t'
  | _ :: t' => reported label t'
  end.

(** The log-likelihood calls of a trace. *)
Fixpoint likelihood_calls (t : list ScriptOp) : list ScriptOp :=
  match t with
  | [] => []
  | ll_multinom m d :: t' => ll_multinom m d :: likelihood_calls t'
  | _ :: t' => likelihood_calls t'
  end.

End Fit.

(** ** Orders on grid lists *)

Fixpoint increasing (l : list Z) : bool :=
  match l with
  | a :: ((b :: _) as l') => (a <? b)%Z && increasing l'
  | _ => true
  end.

Fixpoint decreasing (l : list Z) : bool :=
  match l with
  | a :: ((b :: _) as l') => (b <? a)%Z && decreasing l'
  | _ => true
  end.

(** ** Shapes of a model's growth epoch *)

Section Shapes.

Context {Grid Phi Spectrum : Type}.

(** The last epoch of [p] lasts [Te] and is given the closures
    [nu_func nu1 Te] and [nu_func nu2 Te]; the epoch before it holds the two
    populations at the constant sizes [start1] and [start2]. *)
Definition growth_epoch
    (e : @Engine Grid Phi Spectrum) (p : @Model Grid Phi Spectrum)
    (start1 start2 nu1 nu2 Te : R) : Prop :=
  exists T m12 m21 m12' m21',
    previous_epoch (trace e p)
      = Some (mkEpoch T (Const start1) (Const start2) m12 m21) /\
    last_epoch (trace e p)
      = Some (mkEpoch Te (Func (nu_func nu1 Te)) (Func (nu_func nu2 Te))
                m12' m21').

(** The growth form of the specification, read on a model: the last epoch
    of [p] lasts [Te], and the size function of each population is the
    exponential interpolation from [start] to [nu], equal to [start] at 0
    and to [nu] at [Te]. *)
Definition exponential_growth
    (e : @Engine Grid Phi Spectrum) (p : @Model Grid Phi Spectrum)
    (start1 start2 nu1 nu2 Te : R) : Prop :=
  exists f1 f2 m12 m21,
    last_epoch (trace e p) = Some (mkEpoch Te (Func f1) (Func f2) m12 m21) /\
    (forall t, f1 t = exponential_interpolation start1 nu1 Te t) /\
    (forall t, f2 t = exponential_interpolation start2 nu2 Te t) /\
    f1 0 = start1 /\ f1 Te = nu1 /\ f2 0 = start2 /\ f2 Te = nu2.

(** What the growth epoch of [p] is given: it lasts [Te], the size function
    of each population is the closure [exp (ln nu * t / Te)] on its final
    size, and both closures are 1 at time 0. *)
Definition grows_from_reference
    (e : @Engine Grid Phi Spectrum) (p : @Model Grid Phi Spectrum)
    (nu1 nu2 Te : R) : Prop :=
  exists f1 f2 m12 m21,
    last_epoch (trace e p) = Some (mkEpoch Te (Func f1) (Func f2) m12 m21) /\
    (forall t, f1 t = exp (ln nu1 * t / Te)) /\
    (forall t, f2 t = exp (ln nu2 * t / Te)) /\
    f1 0 = 1 /\ f2 0 = 1.

(** The size of a population on either side of the start of the last
    epoch of a trace: the size the epoch before has when it ends, and the
    size the last epoch has at its time 0.  [pop] is [size1] or [size2]. *)
Definition size_step (pop : Epoch -> Size) (t : list (@EngineOp Grid Phi))
  : option (R * R) :=
  match previous_epoch t, last_epoch t with
  | Some before, Some after =>
    Some (size_at (pop before) (duration before), size_at (pop after) 0)
  | _, _ => None
  end.

(** The size of the population changes at once where the last epoch
    starts. *)
Definition discontinuous (pop : Epoch -> Size)
    (t : list (@EngineOp Grid Phi)) : Prop :=
  exists before after : R,
    size_step pop t = Some (before, after) /\ before <> after.

(** The growth epoch of [p] is built from [nu1], [nu2] and [Te] only, after
    an epoch at the constant sizes [start1], [start2]; where it starts, each
    population passes from that size to the size 1, which is a change of
    size as soon as the earlier size is not 1. *)
Definition jumps_to_reference
    (e : @Engine Grid Phi Spectrum) (p : @Model Grid Phi Spectrum)
    (start1 start2 nu1 nu2 Te : R) : Prop :=
  growth_epoch e p start1 start2 nu1 nu2 Te /\
  size_step size1 (trace e p) = Some (start1, 1) /\
  size_step size2 (trace e p) = Some (start2, 1) /\
  (start1 <> 1 -> discontinuous size1 (trace e p)) /\
  (start2 <> 1 -> discontinuous size2 (trace e p)).

End Shapes.

(** ** Stand-in libraries for concrete runs *)

(** An engine that only records: the grid is its number of points, a
    density is the list of the durations integrated so far, a spectrum is
    that list with the sample sizes. *)
Definition recording_engine
  : Engine (Grid := Z) (Phi := list R) (Spectrum := list R * (Z * Z)) :=
  fun op =>
    match op as o return engine_ret o with
    | default_grid pts => pts
    | phi_1D _ => []
    | phi_1D_to_2D _ phi => phi
    | two_pops phi _ T _ _ _ _ => phi ++ [T]
    | from_phi phi ns _ => (phi, ns)
    end.

(** A library for the script that answers with fixed values: the
    optimizer returns its starting point, the likelihood is [-100]. *)
Definition fixed_library
  : Library (Grid := Z) (Phi := list R) (Spectrum := list R * (Z * Z))
      (DataDict := unit) (ExtrapFunc := unit) :=
  fun op =>
    match op as o return script_ret o with
    | make_data_dict _ => tt
    | from_data_dict _ _ proj _ => ([], (49, 41)%Z)
    | sample_sizes _ => [49; 41]%Z
    | make_extrap_log_func _ => tt
    | perturb_params p _ _ _ => p
    | print _ => tt
    | optimize_log p _ _ _ _ _ _ _ => p
    | apply_func_ex _ _ _ _ => ([], (49, 41)%Z)
    | ll_multinom _ _ => -100
    | optimal_sfs_scaling _ _ => 1
    | pylab_figure _ => tt
    | plot_2d_comp_multinom _ _ _ _ _ => tt
    | pylab_show => tt
    end.

(** ** The shape of a model evaluation *)

Section Pipeline.

Context {Grid Phi Spectrum : Type}.

(** The number of [two_pops] calls in the body of each function. *)
Definition n_epochs (m : ModelName) : nat :=
  match m with
  | M_SI | M_IM => 1
  | M_SIex | M_IMex | M_SC | M_AM => 2
  | M_SIbo | M_SCex | M_AMex => 3
  | M_PSC | M_PAM => 4
  | M_PSCex | M_PAMex => 5
  end%nat.

(** The calls after the split: [two_pops] calls on the grid [xx], the
    first on the density [phi] and each next one on the answer to the one
    before, closed by one projection of the last answer at the sample sizes
    [ns] on the grid pair [(xx, xx)]. *)
Fixpoint chained (e : @Engine Grid Phi Spectrum) (xx : Grid) (ns : Z * Z)
    (phi : Phi) (t : list EngineOp) : Prop :=
  match t with
  | [] => False
  | two_pops phi' xx' T nu1 nu2 m12 m21 :: t' =>
    phi' = phi /\ xx' = xx /\
    chained e xx ns (e (two_pops phi' xx' T nu1 nu2 m12 m21)) t'
  | from_phi phi' ns' xxs :: t' =>
    phi' = phi /\ ns' = ns /\ xxs = (xx, xx) /\ t' = []
  | _ :: _ => False
  end.

(** A whole evaluation: the grid for [pts], the one-population density on
    it, the split of that density, then a chain. *)
Definition pipeline (e : @Engine Grid Phi Spectrum) (pts : Z) (ns : Z * Z)
    (t : list EngineOp) : Prop :=
  match t with
  | default_grid pts' :: phi_1D xx1 :: phi_1D_to_2D xx2 phi0 :: t' =>
    pts' = pts /\
    xx1 = e (default_grid pts') /\
    xx2 = xx1 /\
    phi0 = e (phi_1D xx1) /\
    chained e xx1 ns (e (phi_1D_to_2D xx2 phi0)) t'
  | _ => False
  end.

(** The density a trace hands to the projection. *)
Definition projected (t : list (@EngineOp Grid Phi)) : option Phi :=
  match last t (default_grid 0) with
  | from_phi phi _ _ => Some phi
  | _ => None
  end.

(** The density a trace hands to its last [two_pops] call. *)
Definition last_advance_input (t : list (@EngineOp Grid Phi)) : option Phi :=
  match last (advances t) (default_grid 0) with
  | two_pops phi _ _ _ _ _ _ => Some phi
  | _ => None
  end.

(** An epoch without migration. *)
Definition isolated (ep : Epoch) : Prop :=
  mig12 ep = 0 /\ mig21 ep = 0.

(** The functions whose last epoch is given the two growth closures. *)
Definition uses_growth (m : ModelName) : bool :=
  match m with
  | M_SIex | M_SIbo | M_IMex | M_SCex | M_AMex | M_PSCex | M_PAMex => true
  | M_SI | M_IM | M_SC | M_AM | M_PSC | M_PAM => false
  end.

(** The position of [m12] in the parameter vector of the functions that
    read one: after the two sizes, or after the four sizes of a growth
    variant; [m21] follows it. *)
Definition migration_index (m : ModelName) : nat :=
  if uses_growth m then 4%nat else 2%nat.

(** Both populations at constant sizes, or both following closures. *)
Definition constant_sizes (ep : Epoch) : Prop :=
  exists a b : R, size1 ep = Const a /\ size2 ep = Const b.

Definition growing_sizes (ep : Epoch) : Prop :=
  exists f g : R -> R, size1 ep = Func f /\ size2 ep = Func g.

End Pipeline.

(** * Properties *)

(** ** Programs and handlers *)

Section ProgramFacts.

Context {Op : Type} {response : Op -> Type}.

(** A program that raises at once issues no call. *)
Lemma raise_no_call {A : Type} (h : Handler (response := response))
    (err : PyError) (p : Prog A) :
  p = Raise err -> trace h p = [] /\ run h p = inl err.
Proof. intros ->. split; reflexivity. Qed.

End ProgramFacts.

(** ** The growth closure *)

(** At time 0 the closure is 1: the product with 0 and the quotient by a
    non-zero [Te] are 0, and [exp 0] is 1. *)
Lemma nu_func_at_0 (nu Te : R) : 0 < nu -> Te <> 0 -> nu_func nu Te 0 = 1.
Proof.
  intros _ _. unfold nu_func.
  replace (ln nu * 0 / Te) with 0 by (unfold Rdiv; ring).
  apply exp_0.
Qed.

(** ** Properties of the models *)

Section ModelFacts.

Context {Grid Phi Spectrum : Type}.
Variable e : @Engine Grid Phi Spectrum.

(** C3.  Migration rates of exactly 0 behave as no migration: [IM] at
    [(nu1, nu2, 0, 0, Ts)] is the same program as [SI] at [(nu1, nu2, Ts)],
    so it asks the engine the same calls and returns the same spectrum, at
    every sample-size argument and every grid resolution. *)
Theorem IM_zero_migration_is_SI (nu1 nu2 Ts : R) (ns : list Z) (pts : Z) :
  (IM [nu1; nu2; 0; 0; Ts] ns pts : @Model Grid Phi Spectrum)
    = SI [nu1; nu2; Ts] ns pts /\
  trace e (IM [nu1; nu2; 0; 0; Ts] ns pts) = trace e (SI [nu1; nu2; Ts] ns pts) /\
  run e (IM [nu1; nu2; 0; 0; Ts] ns pts) = run e (SI [nu1; nu2; Ts] ns pts).
Proof.
  assert (Heq : (IM [nu1; nu2; 0; 0; Ts] ns pts : @Model Grid Phi Spectrum)
                = SI [nu1; nu2; Ts] ns pts).
  { destruct ns as [| n1 [| n2 [| n3 ns']]]; reflexivity. }
  rewrite Heq. repeat split.
Qed.

(** C5.  [SI] builds the grid, the one-population density, splits it,
    advances the joint density through one epoch of duration [Ts] at the
    constant sizes [nu1], [nu2] with both migration rates zero, and projects
    the result at [(n1, n2)]: these five calls, in this order, each on the
    answer of the one before, and nothing else. *)
Theorem SI_epoch_composition (nu1 nu2 Ts : R) (n1 n2 pts : Z) :
  let xx : Grid := e (default_grid pts) in
  let phi0 : Phi := e (phi_1D xx) in
  let phi1 : Phi := e (phi_1D_to_2D xx phi0) in
  let phi2 : Phi := e (two_pops phi1 xx Ts (Const nu1) (Const nu2) 0 0) in
  trace e (SI [nu1; nu2; Ts] [n1; n2] pts)
    = [ default_grid pts;
        phi_1D xx;
        phi_1D_to_2D xx phi0;
        two_pops phi1 xx Ts (Const nu1) (Const nu2) 0 0;
        from_phi phi2 (n1, n2) (xx, xx) ] /\
  run e (SI [nu1; nu2; Ts] [n1; n2] pts)
    = inr (e (from_phi phi2 (n1, n2) (xx, xx))).
Proof. split; reflexivity. Qed.

(** C4.  [PAM] advances the density four times, in the order
    ([Tam] with migration [m12], [m21]), ([Ts] without migration),
    ([Tam] with migration), ([Ts] without migration), and [PSC] four times
    in the order ([Ts] without), ([Tsc] with), ([Ts] without), ([Tsc] with);
    each call is given the density the call before returned. *)
Theorem periodic_models_advance_four_times
    (nu1 nu2 m12 m21 Tam Ts Tsc : R) (n1 n2 pts : Z) :
  let xx : Grid := e (default_grid pts) in
  let phi0 : Phi := e (phi_1D_to_2D xx (e (phi_1D xx))) in
  (let phi1 : Phi := e (two_pops phi0 xx Tam (Const nu1) (Const nu2) m12 m21) in
   let phi2 : Phi := e (two_pops phi1 xx Ts (Const nu1) (Const nu2) 0 0) in
   let phi3 : Phi := e (two_pops phi2 xx Tam (Const nu1) (Const nu2) m12 m21) in
   let phi4 : Phi := e (two_pops phi3 xx Ts (Const nu1) (Const nu2) 0 0) in
   advances (trace e (PAM [nu1; nu2; m12; m21; Tam; Ts] [n1; n2] pts))
     = [ two_pops phi0 xx Tam (Const nu1) (Const nu2) m12 m21;
         two_pops phi1 xx Ts (Const nu1) (Const nu2) 0 0;
         two_pops phi2 xx Tam (Const nu1) (Const nu2) m12 m21;
         two_pops phi3 xx Ts (Const nu1) (Const nu2) 0 0 ] /\
   run e (PAM [nu1; nu2; m12; m21; Tam; Ts] [n1; n2] pts)
     = inr (e (from_phi phi4 (n1, n2) (xx, xx)))) /\
  (let phi1 : Phi := e (two_pops phi0 xx Ts (Const nu1) (Const nu2) 0 0) in
   let phi2 : Phi := e (two_pops phi1 xx Tsc (Const nu1) (Const nu2) m12 m21) in
   let phi3 : Phi := e (two_pops phi2 xx Ts (Const nu1) (Const nu2) 0 0) in
   let phi4 : Phi := e (two_pops phi3 xx Tsc (Const nu1) (Const nu2) m12 m21) in
   advances (trace e (PSC [nu1; nu2; m12; m21; Ts; Tsc] [n1; n2] pts))
     = [ two_pops phi0 xx Ts (Const nu1) (Const nu2) 0 0;
         two_pops phi1 xx Tsc (Const nu1) (Const nu2) m12 m21;
         two_pops phi2 xx Ts (Const nu1) (Const nu2) 0 0;
         two_pops phi3 xx Tsc (Const nu1) (Const nu2) m12 m21 ] /\
   run e (PSC [nu1; nu2; m12; m21; Ts; Tsc] [n1; n2] pts)
     = inr (e (from_phi phi4 (n1, n2) (xx, xx)))).
Proof. repeat split. Qed.

(** C10.  In [AMex] and [PAMex] the final growth epoch is integrated with
    both migration rates zero; in [IMex], [SCex] and [PSCex] it is
    integrated with the model's [m12] and [m21]. *)
Theorem growth_epoch_migration
    (nu1a nu2a nu1 nu2 m12 m21 Tam Ts Tsc Te : R) (n1 n2 pts : Z) :
  let grow := fun a b =>
    Some (mkEpoch Te (Func (nu_func nu1 Te)) (Func (nu_func nu2 Te)) a b) in
  last_epoch (trace e
      (AMex [nu1a; nu2a; nu1; nu2; m12; m21; Tam; Ts; Te] [n1; n2] pts))
    = grow 0 0 /\
  last_epoch (trace e
      (PAMex [nu1a; nu2a; nu1; nu2; m12; m21; Tam; Ts; Te] [n1; n2] pts))
    = grow 0 0 /\
  last_epoch (trace e
      (IMex [nu1a; nu2a; nu1; nu2; m12; m21; Ts; Te] [n1; n2] pts))
    = grow m12 m21 /\
  last_epoch (trace e
      (SCex [nu1a; nu2a; nu1; nu2; m12; m21; Ts; Tsc; Te] [n1; n2] pts))
    = grow m12 m21 /\
  last_epoch (trace e
      (PSCex [nu1a; nu2a; nu1; nu2; m12; m21; Ts; Tsc; Te] [n1; n2] pts))
    = grow m12 m21.
Proof. repeat split. Qed.

(** The growth epoch of each of the seven growth variants, and the epoch
    before it. *)
Lemma growth_epochs
    (nu1a nu2a nu1B nu2B nu1 nu2 m12 m21 Tam Ts Tsc TB Te : R)
    (n1 n2 pts : Z) :
  growth_epoch e (SIex [nu1a; nu2a; nu1; nu2; Ts; Te] [n1; n2] pts)
    nu1a nu2a nu1 nu2 Te /\
  growth_epoch e
    (SIbo [nu1a; nu2a; nu1B; nu2B; nu1; nu2; Ts; TB; Te] [n1; n2] pts)
    nu1B nu2B nu1 nu2 Te /\
  growth_epoch e (IMex [nu1a; nu2a; nu1; nu2; m12; m21; Ts; Te] [n1; n2] pts)
    nu1a nu2a nu1 nu2 Te /\
  growth_epoch e
    (SCex [nu1a; nu2a; nu1; nu2; m12; m21; Ts; Tsc; Te] [n1; n2] pts)
    nu1a nu2a nu1 nu2 Te /\
  growth_epoch e
    (AMex [nu1a; nu2a; nu1; nu2; m12; m21; Tam; Ts; Te] [n1; n2] pts)
    nu1a nu2a nu1 nu2 Te /\
  growth_epoch e
    (PSCex [nu1a; nu2a; nu1; nu2; m12; m21; Ts; Tsc; Te] [n1; n2] pts)
    nu1a nu2a nu1 nu2 Te /\
  growth_epoch e
    (PAMex [nu1a; nu2a; nu1; nu2; m12; m21; Tam; Ts; Te] [n1; n2] pts)
    nu1a nu2a nu1 nu2 Te.
Proof.
  repeat split; unfold growth_epoch; do 5 eexists; split; reflexivity.
Qed.

(** A growth epoch starts from the size 1, whatever came before. *)
Lemma growth_epoch_starts_at_1 (p : @Model Grid Phi Spectrum)
    (start1 start2 nu1 nu2 Te : R) :
  0 < nu1 -> 0 < nu2 -> Te <> 0 ->
  growth_epoch e p start1 start2 nu1 nu2 Te ->
  grows_from_reference e p nu1 nu2 Te.
Proof.
  intros H1 H2 HTe (T & a & b & a' & b' & _ & Hlast).
  exists (nu_func nu1 Te), (nu_func nu2 Te), a', b'.
  split; [exact Hlast |].
  split; [intros t; reflexivity |].
  split; [intros t; reflexivity |].
  split; apply nu_func_at_0; assumption.
Qed.

(** Where a growth epoch starts, each population passes from its earlier
    constant size to the size 1. *)
Lemma growth_epoch_jumps (p : @Model Grid Phi Spectrum)
    (start1 start2 nu1 nu2 Te : R) :
  0 < nu1 -> 0 < nu2 -> Te <> 0 ->
  growth_epoch e p start1 start2 nu1 nu2 Te ->
  jumps_to_reference e p start1 start2 nu1 nu2 Te.
Proof.
  intros H1 H2 HTe Hshape.
  pose proof Hshape as (T & a & b & a' & b' & Hprev & Hlast).
  assert (Hstep1 : size_step size1 (trace e p) = Some (start1, 1)).
  { unfold size_step. rewrite Hprev, Hlast.
    cbn [size_at size1 duration].
    rewrite nu_func_at_0 by assumption. reflexivity. }
  assert (Hstep2 : size_step size2 (trace e p) = Some (start2, 1)).
  { unfold size_step. rewrite Hprev, Hlast.
    cbn [size_at size2 duration].
    rewrite nu_func_at_0 by assumption. reflexivity. }
  split; [exact Hshape |].
  split; [exact Hstep1 |].
  split; [exact Hstep2 |].
  split; intros Hne.
  - exists start1, 1. split; [exact Hstep1 | exact Hne].
  - exists start2, 1. split; [exact Hstep2 | exact Hne].
Qed.

(** C1 (as the code has it).  In each of the seven growth variants the
    size function of a population during the growth epoch is the closure
    size(t) = exp (log final * t / Te), built from the final size and [Te]
    alone, and size(0) = 1, for positive final sizes and a non-zero [Te]:
    growth starts from the size 1, and the size the population had in the
    epoch before does not enter. *)
Theorem growth_trajectory_from_reference
    (nu1a nu2a nu1B nu2B nu1 nu2 m12 m21 Tam Ts Tsc TB Te : R)
    (n1 n2 pts : Z) :
  0 < nu1 -> 0 < nu2 -> Te <> 0 ->
  grows_from_reference e
    (SIex [nu1a; nu2a; nu1; nu2; Ts; Te] [n1; n2] pts)
    nu1 nu2 Te /\
  grows_from_reference e
    (SIbo [nu1a; nu2a; nu1B; nu2B; nu1; nu2; Ts; TB; Te] [n1; n2] pts)
    nu1 nu2 Te /\
  grows_from_reference e
    (IMex [nu1a; nu2a; nu1; nu2; m12; m21; Ts; Te] [n1; n2] pts)
    nu1 nu2 Te /\
  grows_from_reference e
    (SCex [nu1a; nu2a; nu1; nu2; m12; m21; Ts; Tsc; Te] [n1; n2] pts)
    nu1 nu2 Te /\
  grows_from_reference e
    (AMex [nu1a; nu2a; nu1; nu2; m12; m21; Tam; Ts; Te] [n1; n2] pts)
    nu1 nu2 Te /\
  grows_from_reference e
    (PSCex [nu1a; nu2a; nu1; nu2; m12; m21; Ts; Tsc; Te] [n1; n2] pts)
    nu1 nu2 Te /\
  grows_from_reference e
    (PAMex [nu1a; nu2a; nu1; nu2; m12; m21; Tam; Ts; Te] [n1; n2] pts)
    nu1 nu2 Te.
Proof.
  intros H1 H2 HTe.
  pose proof (growth_epochs nu1a nu2a nu1B nu2B nu1 nu2 m12 m21
                Tam Ts Tsc TB Te n1 n2 pts)
    as (G1 & G2 & G3 & G4 & G5 & G6 & G7).
  refine (conj _ (conj _ (conj _ (conj _ (conj _ (conj _ _))))));
    eapply growth_epoch_starts_at_1; eassumption.
Qed.

(** C9 (as the code has it).  In each of the seven growth variants the two
    size functions of the growth epoch are built from the final size and
    [Te] alone and are 1 at time 0, while the epoch before holds the
    populations at constant sizes: [nu1a], [nu2a], and in [SIbo] the
    bottleneck sizes [nu1B], [nu2B].  So where the growth epoch starts a
    population passes from that size to 1, and changes size at once when that
    size is not 1. *)
Theorem growth_ignores_start_size
    (nu1a nu2a nu1B nu2B nu1 nu2 m12 m21 Tam Ts Tsc TB Te : R)
    (n1 n2 pts : Z) :
  0 < nu1 -> 0 < nu2 -> Te <> 0 ->
  jumps_to_reference e
    (SIex [nu1a; nu2a; nu1; nu2; Ts; Te] [n1; n2] pts)
    nu1a nu2a nu1 nu2 Te /\
  jumps_to_reference e
    (SIbo [nu1a; nu2a; nu1B; nu2B; nu1; nu2; Ts; TB; Te] [n1; n2] pts)
    nu1B nu2B nu1 nu2 Te /\
  jumps_to_reference e
    (IMex [nu1a; nu2a; nu1; nu2; m12; m21; Ts; Te] [n1; n2] pts)
    nu1a nu2a nu1 nu2 Te /\
  jumps_to_reference e
    (SCex [nu1a; nu2a; nu1; nu2; m12; m21; Ts; Tsc; Te] [n1; n2] pts)
    nu1a nu2a nu1 nu2 Te /\
  jumps_to_reference e
    (AMex [nu1a; nu2a; nu1; nu2; m12; m21; Tam; Ts; Te] [n1; n2] pts)
    nu1a nu2a nu1 nu2 Te /\
  jumps_to_reference e
    (PSCex [nu1a; nu2a; nu1; nu2; m12; m21; Ts; Tsc; Te] [n1; n2] pts)
    nu1a nu2a nu1 nu2 Te /\
  jumps_to_reference e
    (PAMex [nu1a; nu2a; nu1; nu2; m12; m21; Tam; Ts; Te] [n1; n2] pts)
    nu1a nu2a nu1 nu2 Te.
Proof.
  intros H1 H2 HTe.
  pose proof (growth_epochs nu1a nu2a nu1B nu2B nu1 nu2 m12 m21
                Tam Ts Tsc TB Te n1 n2 pts)
    as (G1 & G2 & G3 & G4 & G5 & G6 & G7).
  refine (conj _ (conj _ (conj _ (conj _ (conj _ (conj _ _))))));
    apply growth_epoch_jumps; assumption.
Qed.

(** Case analysis on a parameter list, up to one more element than the
    longest unpacking reads. *)
Ltac split_params params :=
  do 10 (try destruct params as [| ? params]).

(** A parameter vector of the right length, with two sample sizes, makes
    the model run to its spectrum: the arities are the ones the functions
    read. *)
Lemma right_length_returns
    (m : ModelName) (params : list R) (n1 n2 pts : Z) :
  List.length params = arity m ->
  exists fs : Spectrum, run e (model_fn m params [n1; n2] pts) = inr fs.
Proof.
  intros Hlen.
  destruct m; cbn [arity] in Hlen; cbn [model_fn]; split_params params;
    try discriminate Hlen.
  all: eexists; reflexivity.
Qed.

(** C7.  A parameter vector whose length is not the arity of the model
    makes the model raise at once: no grid is built, no density made, split
    or advanced, and nothing is projected. *)
Theorem wrong_length_raises_before_engine
    (m : ModelName) (params : list R) (ns : list Z) (pts : Z) :
  List.length params <> arity m ->
  exists err : PyError,
    (model_fn m params ns pts : @Model Grid Phi Spectrum) = Raise err /\
    trace e (model_fn m params ns pts) = [] /\
    run e (model_fn m params ns pts) = inl err.
Proof.
  intros Hlen.
  assert (Hraise : exists err : PyError,
             (model_fn m params ns pts : @Model Grid Phi Spectrum) = Raise err).
  { destruct ns as [| n1 [| n2 [| n3 ns']]];
      try (destruct m; eexists; reflexivity).
    destruct m; cbn [arity] in Hlen; cbn [model_fn]; split_params params.
    all: try (exfalso; apply Hlen; reflexivity).
    all: eexists; reflexivity. }
  destruct Hraise as [err Herr].
  exists err. split; [exact Herr |].
  apply raise_no_call. exact Herr.
Qed.

End ModelFacts.

(** ** Properties of the fitting script *)

Section ScriptFacts.

Context {Grid Phi Spectrum DataDict ExtrapFunc : Type}.
Variable h : @Library Grid Phi Spectrum DataDict ExtrapFunc.

(** The script, call by call. *)
Lemma main_trace :
  let dd := h (make_data_dict "dadi_input_JPA_JTR.tsv") in
  let data : Spectrum :=
    h (from_data_dict dd ["JPA"; "JTR"]%string [49; 41]%Z false) in
  let ns : list Z := h (sample_sizes data) in
  let func_ex : ExtrapFunc := h (make_extrap_log_func func) in
  let p1 : list R := h (perturb_params p0 1 upper_bound lower_bound) in
  let popt : list R :=
    h (optimize_log p1 data func_ex pts_l lower_bound upper_bound
         (Z.of_nat (List.length p1)) 10) in
  let model : Spectrum := h (apply_func_ex func_ex popt ns pts_l) in
  let ll_opt : R := h (ll_multinom model data) in
  let theta : R := h (optimal_sfs_scaling model data) in
  trace h main
    = [ make_data_dict "dadi_input_JPA_JTR.tsv";
        from_data_dict dd ["JPA"; "JTR"]%string [49; 41]%Z false;
        sample_sizes data;
        make_extrap_log_func func;
        perturb_params p0 1 upper_bound lower_bound;
        print [VStr "Beginning optimization ************************************************"];
        optimize_log p1 data func_ex pts_l lower_bound upper_bound
          (Z.of_nat (List.length p1)) 10;
        print [VStr "Finished optimization **************************************************"];
        apply_func_ex func_ex popt ns pts_l;
        ll_multinom model data;
        optimal_sfs_scaling model data;
        print [VStr "Optimized parameters"; VRepr popt];
        print [VStr "Optimized log-likelihood:"; VFloat ll_opt];
        print [VStr "theta:"; VFloat theta];
        print [VStr "AIC:"; VFloat (AIC ll_opt)];
        pylab_figure 1;
        plot_2d_comp_multinom model data 1 3 ["JPA"; "JTR"]%string;
        pylab_show ].
Proof. reflexivity. Qed.

(** C2 (as the code has it).  The grid list handed to the extrapolated
    model, once through [optimize_log] and once in the call of [func_ex], is
    [pts_l] both times: a list of two grid sizes in strictly decreasing
    order, 60 then 50. *)
Theorem grid_list_is_decreasing_pair :
  grid_lists (trace h main) = [pts_l; pts_l] /\
  pts_l = [60; 50]%Z /\
  (2 <= List.length pts_l)%nat /\
  decreasing pts_l = true.
Proof.
  rewrite main_trace. repeat split. simpl. lia.
Qed.

(** C6.  The number the script prints as AIC is 2 k - 2 logLikelihood with
    k = 9, the length of the tuple of parameter names
    (nu1a, nu2a, nu1, nu2, m12, m21, Tam, Ts, Te), where logLikelihood is the
    answer of the one [ll_multinom] call; theta is not among the names. *)
Theorem AIC_is_2k_minus_2ll :
  exists model data : Spectrum,
    likelihood_calls (trace h main) = [ll_multinom model data] /\
    reported "Optimized log-likelihood:" (trace h main)
      = Some (h (ll_multinom model data) : R) /\
    reported "AIC:" (trace h main)
      = Some (2 * 9 - 2 * (h (ll_multinom model data) : R)) /\
    params
      = ["nu1a"; "nu2a"; "nu1"; "nu2"; "m12"; "m21"; "Tam"; "Ts"; "Te"]%string /\
    List.length params = 9%nat /\
    ~ In "theta"%string params.
Proof.
  rewrite main_trace.
  do 2 eexists.
  split; [reflexivity |].
  split; [reflexivity |].
  split.
  - cbn [reported String.eqb Ascii.eqb Bool.eqb]. apply f_equal.
    unfold AIC. cbn [params List.length Z.of_nat Pos.of_succ_nat Pos.succ Z.mul Pos.mul Pos.add].
    lra.
  - split; [reflexivity |]. split; [reflexivity |].
    unfold params. cbn [In]. intros H.
    repeat (destruct H as [H | H]; [discriminate H |]). exact H.
Qed.

End ScriptFacts.

(** ** Concrete runs *)

(** C1 as the specification words it, at [SIex] with [nu1a = nu2a = 2],
    [nu1 = nu2 = 3], [Ts = Te = 1]: the growth epoch does not start at the
    size 2 of the epoch before. *)
Lemma growth_does_not_start_at_previous_size :
  ~ exponential_growth recording_engine
      (SIex [2; 2; 3; 3; 1; 1] [49; 41]%Z 60%Z) 2 2 3 3 1.
Proof.
  intros (f1 & f2 & a & b & Hlast & _ & _ & H0 & _).
  pose proof (growth_epochs recording_engine 2 2 0 0 3 3 0 0 0 1 0 0 1
                49%Z 41%Z 60%Z) as ((T & c & d & c' & d' & _ & Hlast') & _).
  rewrite Hlast' in Hlast.
  injection Hlast as Hf1 _ _ _.
  rewrite <- Hf1 in H0. rewrite nu_func_at_0 in H0 by lra. lra.
Qed.

(** The growth epoch of [PAMex] at final sizes 3 and 4 and [Te = 1]. *)
Lemma growth_trajectory_from_reference_witness :
  0 < 3 /\ 0 < 4 /\ 1 <> 0 /\
  grows_from_reference recording_engine
    (PAMex [2; 2; 3; 4; 1; 1; 1; 1; 1] [49; 41]%Z 60%Z) 3 4 1.
Proof.
  assert (H3 : 0 < 3) by lra.
  assert (H4 : 0 < 4) by lra.
  assert (H1 : 1 <> 0) by lra.
  split; [exact H3 |].
  split; [exact H4 |].
  split; [exact H1 |].
  apply (@growth_trajectory_from_reference Z (list R) (list R * (Z * Z))
           recording_engine 2 2 0 0 3 4 1 1 1 1 1 0 1 49%Z 41%Z 60%Z H3 H4 H1).
Defined.

(** C9 as the specification words it, at [SIbo] with [nu1a = nu2a = 2] and
    bottleneck sizes 1: the epoch before the growth epoch does not hold the
    populations at [nu1a], [nu2a] but at the bottleneck sizes; population 1
    passes from the size 1 to the size 1 where the growth epoch starts, so
    although [nu1a] is not 1 its size does not change there. *)
Lemma SIbo_growth_follows_bottleneck :
  let t := trace recording_engine
             (SIbo [2; 2; 1; 1; 3; 3; 1; 1; 1] [49; 41]%Z 60%Z) in
  ~ growth_epoch recording_engine
      (SIbo [2; 2; 1; 1; 3; 3; 1; 1; 1] [49; 41]%Z 60%Z) 2 2 3 3 1 /\
  2 <> 1 /\
  previous_epoch t = Some (mkEpoch 1 (Const 1) (Const 1) 0 0) /\
  last_epoch t
    = Some (mkEpoch 1 (Func (nu_func 3 1)) (Func (nu_func 3 1)) 0 0) /\
  size_step size1 t = Some (1, 1) /\
  ~ discontinuous size1 t.
Proof.
  cbv zeta.
  assert (Hstep : size_step size1
            (trace recording_engine
               (SIbo [2; 2; 1; 1; 3; 3; 1; 1; 1] [49; 41]%Z 60%Z))
          = Some (1, 1)).
  { assert (H3 : 0 < 3) by lra.
    assert (H1 : 1 <> 0) by lra.
    pose proof (growth_epochs recording_engine 2 2 1 1 3 3 0 0 0 1 0 1 1
                  49%Z 41%Z 60%Z) as (_ & Hbo & _).
    exact (proj1 (proj2 (growth_epoch_jumps H3 H3 H1 Hbo))). }
  split; [| split; [lra | split; [reflexivity | split; [reflexivity |]]]].
  - intros (T & a & b & a' & b' & Hprev & _).
    change (previous_epoch (trace recording_engine
              (SIbo [2; 2; 1; 1; 3; 3; 1; 1; 1] [49; 41]%Z 60%Z)))
      with (Some (mkEpoch 1 (Const 1) (Const 1) 0 0)) in Hprev.
    injection Hprev as _ H21 _ _ _. lra.
  - split; [exact Hstep |].
    intros (before & after & Hsome & Hne).
    rewrite Hstep in Hsome. injection Hsome as <- <-.
    apply Hne. reflexivity.
Qed.

(** The growth epoch of [SIbo] after a bottleneck at sizes 6 and 7:
    population 1 passes from 6 to 1. *)
Lemma growth_ignores_start_size_witness :
  0 < 3 /\ 0 < 4 /\ 1 <> 0 /\
  jumps_to_reference recording_engine
    (SIbo [2; 5; 6; 7; 3; 4; 1; 1; 1] [49; 41]%Z 60%Z) 6 7 3 4 1 /\
  (6 <> 1 ->
   discontinuous size1
     (trace recording_engine
        (SIbo [2; 5; 6; 7; 3; 4; 1; 1; 1] [49; 41]%Z 60%Z))).
Proof.
  assert (H3 : 0 < 3) by lra.
  assert (H4 : 0 < 4) by lra.
  assert (H1 : 1 <> 0) by lra.
  pose proof (@growth_ignores_start_size Z (list R) (list R * (Z * Z))
                recording_engine 2 5 6 7 3 4 0 0 0 1 0 1 1 49%Z 41%Z 60%Z
                H3 H4 H1) as (_ & Hbo & _).
  split; [exact H3 |].
  split; [exact H4 |].
  split; [exact H1 |].
  split; [exact Hbo |].
  exact (proj1 (proj2 (proj2 (proj2 Hbo)))).
Defined.

(** [SI] on a parameter vector of length 2. *)
Lemma wrong_length_raises_before_engine_witness :
  List.length [2; 3] <> arity M_SI /\
  exists err : PyError,
    (model_fn M_SI [2; 3] [49; 41]%Z 60%Z
       : @Model Z (list R) (list R * (Z * Z))) = Raise err /\
    trace recording_engine (model_fn M_SI [2; 3] [49; 41]%Z 60%Z) = [] /\
    run recording_engine (model_fn M_SI [2; 3] [49; 41]%Z 60%Z) = inl err.
Proof.
  assert (Hlen : List.length [2; 3] <> arity M_SI) by (simpl; lia).
  split; [exact Hlen |].
  exact (@wrong_length_raises_before_engine Z (list R) (list R * (Z * Z))
           recording_engine M_SI [2; 3] [49; 41]%Z 60%Z Hlen).
Defined.

(** C2 as the specification words it, on a run of the script: the grid
    lists it hands over are not lists of at least two increasing grid
    sizes. *)
Lemma grid_list_is_not_increasing :
  ~ Forall (fun l => (2 <= List.length l)%nat /\ increasing l = true)
      (grid_lists (trace fixed_library main)).
Proof.
  pose proof (main_trace fixed_library) as Ht. cbv zeta in Ht.
  rewrite Ht. cbn [grid_lists].
  intros H. inversion H as [| l ls [_ Hinc] _]. discriminate Hinc.
Qed.

(** * Further properties of the models *)

(** Case analysis on a parameter list against the arity of a model. *)
Ltac by_arity m params Hlen :=
  destruct m; cbn [arity] in Hlen; cbn [model_fn];
  do 10 (try destruct params as [| ? params]);
  try discriminate Hlen.

Section Composition.

Context {Grid Phi Spectrum : Type}.
Variable e : @Engine Grid Phi Spectrum.

(** Every model, on a parameter vector of its arity and two sample sizes,
    asks the engine for the grid, the one-population density, its split,
    then its epochs one after the other, each on the density the call before
    returned and all on the one grid, and last for the projection at the two
    sample sizes; the spectrum it returns is the answer to that projection. *)
Theorem model_is_a_pipeline
    (m : ModelName) (params : list R) (n1 n2 pts : Z) :
  List.length params = arity m ->
  pipeline e pts (n1, n2) (trace e (model_fn m params [n1; n2] pts)) /\
  exists phi : Phi,
    projected (trace e (model_fn m params [n1; n2] pts)) = Some phi /\
    run e (model_fn m params [n1; n2] pts)
      = inr (e (from_phi phi (n1, n2)
                  (e (default_grid pts), e (default_grid pts)))).
Proof.
  intros Hlen. by_arity m params Hlen.
  all: split; [cbn; repeat split | eexists; split; reflexivity].
Qed.

(** Each model makes as many [two_pops] calls as its body lists, and four
    calls besides: grid, density, split and projection. *)
Theorem model_call_count
    (m : ModelName) (params : list R) (n1 n2 pts : Z) :
  List.length params = arity m ->
  List.length (epochs (trace e (model_fn m params [n1; n2] pts)))
    = n_epochs m /\
  List.length (trace e (model_fn m params [n1; n2] pts))
    = (n_epochs m + 4)%nat.
Proof.
  intros Hlen. by_arity m params Hlen.
  all: split; reflexivity.
Qed.

(** The sample sizes reach the projection only: up to its last call, a
    model asks the engine the same at any two pairs of sample sizes. *)
Theorem sample_sizes_enter_projection_only
    (m : ModelName) (params : list R) (n1 n2 n1' n2' pts : Z) :
  removelast (trace e (model_fn m params [n1; n2] pts))
    = removelast (trace e (model_fn m params [n1'; n2'] pts)).
Proof.
  destruct m; cbn [model_fn];
    do 10 (try destruct params as [| ? params]); reflexivity.
Qed.

(** A sample-size argument that is not a pair makes every model raise the
    unpacking error of that argument, whatever the parameter vector, before
    any call to the engine. *)
Theorem bad_sample_sizes_raise_first
    (m : ModelName) (params : list R) (ns : list Z) (pts : Z) :
  List.length ns <> 2%nat ->
  (model_fn m params ns pts : @Model Grid Phi Spectrum)
    = Raise (unpack_error 2 ns) /\
  trace e (model_fn m params ns pts) = [].
Proof.
  intros Hns.
  assert (H : (model_fn m params ns pts : @Model Grid Phi Spectrum)
              = Raise (unpack_error 2 ns)).
  { destruct ns as [| n1 [| n2 [| n3 ns']]];
      try (destruct m; reflexivity).
    exfalso. apply Hns. reflexivity. }
  rewrite H. split; reflexivity.
Qed.

(** With two sample sizes, a parameter vector shorter than the arity raises
    "need more than n values to unpack" with n its length, and a longer one
    raises "too many values to unpack". *)
Theorem wrong_length_error_message
    (m : ModelName) (params : list R) (n1 n2 pts : Z) :
  List.length params <> arity m ->
  (model_fn m params [n1; n2] pts : @Model Grid Phi Spectrum)
    = Raise (if Nat.ltb (List.length params) (arity m)
             then ValueError_need_more (List.length params)
             else ValueError_too_many).
Proof.
  intros Hlen.
  destruct m; cbn [arity] in Hlen |- *; cbn [model_fn];
    do 10 (try destruct params as [| ? params]).
  all: try (exfalso; apply Hlen; reflexivity).
  all: reflexivity.
Qed.

(** Without migration the families coincide: [IMex] is [SIex], [SC] is
    [AM], [SCex] is [AMex], [PSC] is [PAM] and [PSCex] is [PAMex], as
    programs, at every sample-size argument and grid resolution. *)
Theorem zero_migration_collapses_families
    (nu1a nu2a nu1 nu2 Ta Tb Te : R) (ns : list Z) (pts : Z) :
  ((IMex [nu1a; nu2a; nu1; nu2; 0; 0; Ta; Te] ns pts
      : @Model Grid Phi Spectrum)
     = SIex [nu1a; nu2a; nu1; nu2; Ta; Te] ns pts) /\
  ((SC [nu1; nu2; 0; 0; Ta; Tb] ns pts : @Model Grid Phi Spectrum)
     = AM [nu1; nu2; 0; 0; Ta; Tb] ns pts) /\
  ((SCex [nu1a; nu2a; nu1; nu2; 0; 0; Ta; Tb; Te] ns pts
      : @Model Grid Phi Spectrum)
     = AMex [nu1a; nu2a; nu1; nu2; 0; 0; Ta; Tb; Te] ns pts) /\
  ((PSC [nu1; nu2; 0; 0; Ta; Tb] ns pts : @Model Grid Phi Spectrum)
     = PAM [nu1; nu2; 0; 0; Ta; Tb] ns pts) /\
  ((PSCex [nu1a; nu2a; nu1; nu2; 0; 0; Ta; Tb; Te] ns pts
      : @Model Grid Phi Spectrum)
     = PAMex [nu1a; nu2a; nu1; nu2; 0; 0; Ta; Tb; Te] ns pts).
Proof.
  destruct ns as [| n1 [| n2 [| n3 ns']]]; repeat split.
Qed.

(** The strict-isolation models never ask for migration: every epoch of
    [SI], [SIex] and [SIbo] has both rates zero, at every input. *)
Theorem strict_isolation_never_migrates
    (params : list R) (ns : list Z) (pts : Z) :
  Forall isolated (epochs (trace e (SI params ns pts))) /\
  Forall isolated (epochs (trace e (SIex params ns pts))) /\
  Forall isolated (epochs (trace e (SIbo params ns pts))).
Proof.
  destruct ns as [| n1 [| n2 [| n3 ns']]];
    do 10 (try destruct params as [| ? params]);
    repeat split; cbn; repeat constructor.
Qed.

(** In every model the first two parameters are the sizes the two
    populations have in the first epoch after the split, and the last
    parameter is the duration of the last epoch. *)
Theorem parameter_positions
    (m : ModelName) (params : list R) (n1 n2 pts : Z) :
  List.length params = arity m ->
  exists (first : Epoch) (rest : list Epoch),
    epochs (trace e (model_fn m params [n1; n2] pts)) = first :: rest /\
    size1 first = Const (nth 0 params 0) /\
    size2 first = Const (nth 1 params 0) /\
    duration (last (first :: rest) first) = last params 0.
Proof.
  intros Hlen. by_arity m params Hlen.
  all: do 2 eexists; split; [reflexivity | repeat split].
Qed.

(** A growth variant is its base model followed by the growth epoch: the
    epochs of [SIex], [IMex], [SCex], [AMex], [PSCex] and [PAMex] are those of
    [SI], [IM], [SC], [AM], [PSC] and [PAM] at the sizes [nu1a], [nu2a], then
    one epoch of duration [Te] with the two growth closures; and the density
    that enters the growth epoch is the one the base model would project. *)
Theorem growth_variant_extends_base
    (nu1a nu2a nu1 nu2 m12 m21 Ta Tb Te : R) (n1 n2 pts : Z) :
  let grow := fun a b =>
    mkEpoch Te (Func (nu_func nu1 Te)) (Func (nu_func nu2 Te)) a b in
  (epochs (trace e (SIex [nu1a; nu2a; nu1; nu2; Ta; Te] [n1; n2] pts))
     = epochs (trace e (SI [nu1a; nu2a; Ta] [n1; n2] pts))
       ++ [grow 0 0] /\
   last_advance_input (trace e (SIex [nu1a; nu2a; nu1; nu2; Ta; Te] [n1; n2] pts))
     = projected (trace e (SI [nu1a; nu2a; Ta] [n1; n2] pts))) /\
  (epochs (trace e (IMex [nu1a; nu2a; nu1; nu2; m12; m21; Ta; Te] [n1; n2] pts))
     = epochs (trace e (IM [nu1a; nu2a; m12; m21; Ta] [n1; n2] pts))
       ++ [grow m12 m21] /\
   last_advance_input (trace e (IMex [nu1a; nu2a; nu1; nu2; m12; m21; Ta; Te] [n1; n2] pts))
     = projected (trace e (IM [nu1a; nu2a; m12; m21; Ta] [n1; n2] pts))) /\
  (epochs (trace e (SCex [nu1a; nu2a; nu1; nu2; m12; m21; Ta; Tb; Te] [n1; n2] pts))
     = epochs (trace e (SC [nu1a; nu2a; m12; m21; Ta; Tb] [n1; n2] pts))
       ++ [grow m12 m21] /\
   last_advance_input (trace e (SCex [nu1a; nu2a; nu1; nu2; m12; m21; Ta; Tb; Te] [n1; n2] pts))
     = projected (trace e (SC [nu1a; nu2a; m12; m21; Ta; Tb] [n1; n2] pts))) /\
  (epochs (trace e (AMex [nu1a; nu2a; nu1; nu2; m12; m21; Ta; Tb; Te] [n1; n2] pts))
     = epochs (trace e (AM [nu1a; nu2a; m12; m21; Ta; Tb] [n1; n2] pts))
       ++ [grow 0 0] /\
   last_advance_input (trace e (AMex [nu1a; nu2a; nu1; nu2; m12; m21; Ta; Tb; Te] [n1; n2] pts))
     = projected (trace e (AM [nu1a; nu2a; m12; m21; Ta; Tb] [n1; n2] pts))) /\
  (epochs (trace e (PSCex [nu1a; nu2a; nu1; nu2; m12; m21; Ta; Tb; Te] [n1; n2] pts))
     = epochs (trace e (PSC [nu1a; nu2a; m12; m21; Ta; Tb] [n1; n2] pts))
       ++ [grow m12 m21] /\
   last_advance_input (trace e (PSCex [nu1a; nu2a; nu1; nu2; m12; m21; Ta; Tb; Te] [n1; n2] pts))
     = projected (trace e (PSC [nu1a; nu2a; m12; m21; Ta; Tb] [n1; n2] pts))) /\
  (epochs (trace e (PAMex [nu1a; nu2a; nu1; nu2; m12; m21; Ta; Tb; Te] [n1; n2] pts))
     = epochs (trace e (PAM [nu1a; nu2a; m12; m21; Ta; Tb] [n1; n2] pts))
       ++ [grow 0 0] /\
   last_advance_input (trace e (PAMex [nu1a; nu2a; nu1; nu2; m12; m21; Ta; Tb; Te] [n1; n2] pts))
     = projected (trace e (PAM [nu1a; nu2a; m12; m21; Ta; Tb] [n1; n2] pts))).
Proof. repeat split. Qed.

(** [SIbo] is [SI] at the sizes [nu1a], [nu2a], then the bottleneck at the
    constant sizes [nu1B], [nu2B] for [TB], then the growth epoch, all
    without migration; the bottleneck starts from the density [SI] would
    project. *)
Theorem bottleneck_variant_extends_SI
    (nu1a nu2a nu1B nu2B nu1 nu2 Ts TB Te : R) (n1 n2 pts : Z) :
  epochs (trace e
      (SIbo [nu1a; nu2a; nu1B; nu2B; nu1; nu2; Ts; TB; Te] [n1; n2] pts))
    = epochs (trace e (SI [nu1a; nu2a; Ts] [n1; n2] pts))
      ++ [ mkEpoch TB (Const nu1B) (Const nu2B) 0 0;
           mkEpoch Te (Func (nu_func nu1 Te)) (Func (nu_func nu2 Te)) 0 0 ] /\
  (exists phi : Phi,
     projected (trace e (SI [nu1a; nu2a; Ts] [n1; n2] pts)) = Some phi /\
     nth_error
       (advances (trace e
          (SIbo [nu1a; nu2a; nu1B; nu2B; nu1; nu2; Ts; TB; Te] [n1; n2] pts)))
       1
       = Some (two_pops phi (e (default_grid pts)) TB
                 (Const nu1B) (Const nu2B) 0 0)).
Proof. split; [reflexivity | eexists; split; reflexivity]. Qed.

(** A periodic model repeats its single-period model: the epochs of [PSC]
    are those of [SC] twice over, and the epochs of [PAM] those of [AM]
    twice over, at the same parameters. *)
Theorem periodic_is_single_twice
    (params : list R) (ns : list Z) (pts : Z) :
  epochs (trace e (PSC params ns pts))
    = epochs (trace e (SC params ns pts))
      ++ epochs (trace e (SC params ns pts)) /\
  epochs (trace e (PAM params ns pts))
    = epochs (trace e (AM params ns pts))
      ++ epochs (trace e (AM params ns pts)).
Proof.
  destruct ns as [| n1 [| n2 [| n3 ns']]];
    do 7 (try destruct params as [| ? params]);
    split; reflexivity.
Qed.

(** Ancient migration is secondary contact in the opposite order: the
    epochs of [AM] at durations [(Tam, Ts)] are those of [SC] at
    [(Ts, Tam)] reversed, and likewise [PAM] and [PSC]. *)
Theorem ancient_migration_reverses_secondary_contact
    (nu1 nu2 m12 m21 Tam Ts : R) (n1 n2 pts : Z) :
  epochs (trace e (AM [nu1; nu2; m12; m21; Tam; Ts] [n1; n2] pts))
    = rev (epochs (trace e (SC [nu1; nu2; m12; m21; Ts; Tam] [n1; n2] pts))) /\
  epochs (trace e (PAM [nu1; nu2; m12; m21; Tam; Ts] [n1; n2] pts))
    = rev (epochs (trace e (PSC [nu1; nu2; m12; m21; Ts; Tam] [n1; n2] pts))).
Proof. split; reflexivity. Qed.

End Composition.

Section Schedules.

Context {Grid Phi Spectrum : Type}.
Variable e : @Engine Grid Phi Spectrum.

(** Sizes change with time in the last epoch only, and then for both
    populations: every epoch before the last is at constant sizes; the last
    epoch of a growth variant follows two closures for the duration given by
    the last parameter, and the last epoch of the other models is at
    constant sizes too. *)
Theorem growth_only_in_last_epoch
    (m : ModelName) (params : list R) (n1 n2 pts : Z) :
  List.length params = arity m ->
  Forall constant_sizes
    (removelast (epochs (trace e (model_fn m params [n1; n2] pts)))) /\
  exists ep : Epoch,
    last_epoch (trace e (model_fn m params [n1; n2] pts)) = Some ep /\
    duration ep = last params 0 /\
    (if uses_growth m then growing_sizes ep else constant_sizes ep).
Proof.
  intros Hlen. by_arity m params Hlen.
  all: split;
    [ repeat (apply Forall_cons; [do 2 eexists; split; reflexivity |]);
      apply Forall_nil
    | eexists; split; [reflexivity |]; split; [reflexivity |];
      cbn [uses_growth]; do 2 eexists; split; reflexivity ].
Qed.

(** A model has one migration regime: every epoch either has both rates
    zero or has the rate into population 1 and the rate into population 2
    that the parameter vector gives, in that order. *)
Theorem one_migration_regime
    (m : ModelName) (params : list R) (n1 n2 pts : Z) :
  List.length params = arity m ->
  Forall (fun ep =>
            isolated ep \/
            (mig12 ep = nth (migration_index m) params 0 /\
             mig21 ep = nth (S (migration_index m)) params 0))
    (epochs (trace e (model_fn m params [n1; n2] pts))).
Proof.
  intros Hlen. by_arity m params Hlen.
  all: repeat (apply Forall_cons;
                 [first [ left; split; reflexivity
                        | right; split; reflexivity ] |]);
    apply Forall_nil.
Qed.

End Schedules.

(** * Further properties of the fitting script *)

Section ScriptComposition.

Context {Grid Phi Spectrum DataDict ExtrapFunc : Type}.
Variable h : @Library Grid Phi Spectrum DataDict ExtrapFunc.

(** What is scored is the fit: the optimizer starts from the perturbed
    guess, within the same two bound lists the perturbation was given; the
    spectrum that is scored, scaled and plotted is the extrapolated [PAMex]
    evaluated at the optimizer's answer, at the sample sizes of the data and
    on the optimizer's grid list; and it is scored against the data the
    optimizer fitted. *)
Theorem fit_is_scored_at_optimum :
  exists (data model : Spectrum) (func_ex : ExtrapFunc)
         (p1 popt : list R) (ns : list Z),
    func_ex = h (make_extrap_log_func PAMex) /\
    p1 = h (perturb_params p0 1 upper_bound lower_bound) /\
    ns = h (sample_sizes data) /\
    popt = h (optimize_log p1 data func_ex pts_l lower_bound upper_bound
                (Z.of_nat (List.length p1)) 10) /\
    model = h (apply_func_ex func_ex popt ns pts_l) /\
    In (optimize_log p1 data func_ex pts_l lower_bound upper_bound
          (Z.of_nat (List.length p1)) 10) (trace h main) /\
    In (apply_func_ex func_ex popt ns pts_l) (trace h main) /\
    In (ll_multinom model data) (trace h main) /\
    In (optimal_sfs_scaling model data) (trace h main) /\
    In (plot_2d_comp_multinom model data 1 3 ["JPA"; "JTR"]%string)
       (trace h main) /\
    reported "Optimized log-likelihood:" (trace h main)
      = Some (h (ll_multinom model data) : R) /\
    reported "theta:" (trace h main)
      = Some (h (optimal_sfs_scaling model data) : R).
Proof.
  rewrite main_trace.
  do 6 eexists.
  do 5 (split; [reflexivity |]).
  repeat split; cbn [In]; auto 20.
Qed.

(** The script and the model agree on the number of parameters: the
    starting point, both bound lists and the tuple of names have the arity
    of the model that is fitted, the starting point lies within the bounds,
    and on any vector of that length, with two sample sizes, the model
    returns a spectrum. *)
Theorem script_vector_fits_model
    (e : @Engine Grid Phi Spectrum) (p : list R) (n1 n2 pts : Z) :
  List.length p = List.length p0 ->
  List.length p0 = arity M_PAMex /\
  List.length lower_bound = arity M_PAMex /\
  List.length upper_bound = arity M_PAMex /\
  List.length params = arity M_PAMex /\
  Forall2 Rle lower_bound p0 /\
  Forall2 Rle p0 upper_bound /\
  exists fs : Spectrum, run e (func p [n1; n2] pts) = inr fs.
Proof.
  intros Hlen.
  do 4 (split; [reflexivity |]).
  split; [unfold lower_bound, p0; repeat constructor; lra |].
  split; [unfold upper_bound, p0; repeat constructor; lra |].
  unfold func. cbn [p0 List.length] in Hlen.
  do 10 (try destruct p as [| ? p]); try discriminate Hlen.
  eexists. reflexivity.
Qed.

End ScriptComposition.

(** * Concrete runs of the further properties *)

(** [PAMex] at nine parameters on the recording engine. *)
Lemma model_is_a_pipeline_witness :
  List.length [2; 2; 3; 4; 1; 1; 1; 1; 1] = arity M_PAMex /\
  pipeline recording_engine 60 (49, 41)%Z
    (trace recording_engine
       (model_fn M_PAMex [2; 2; 3; 4; 1; 1; 1; 1; 1] [49; 41]%Z 60%Z)).
Proof.
  assert (Hlen : List.length [2; 2; 3; 4; 1; 1; 1; 1; 1] = arity M_PAMex)
    by reflexivity.
  split; [exact Hlen |].
  exact (proj1 (@model_is_a_pipeline Z (list R) (list R * (Z * Z))
                  recording_engine M_PAMex [2; 2; 3; 4; 1; 1; 1; 1; 1]
                  49%Z 41%Z 60%Z Hlen)).
Defined.

(** [SIbo] makes three [two_pops] calls and seven calls in all. *)
Lemma model_call_count_witness :
  List.length [2; 2; 1; 1; 3; 3; 1; 1; 1] = arity M_SIbo /\
  List.length (trace recording_engine
      (model_fn M_SIbo [2; 2; 1; 1; 3; 3; 1; 1; 1] [49; 41]%Z 60%Z))
    = (n_epochs M_SIbo + 4)%nat.
Proof.
  assert (Hlen : List.length [2; 2; 1; 1; 3; 3; 1; 1; 1] = arity M_SIbo)
    by reflexivity.
  split; [exact Hlen |].
  exact (proj2 (@model_call_count Z (list R) (list R * (Z * Z))
                  recording_engine M_SIbo [2; 2; 1; 1; 3; 3; 1; 1; 1]
                  49%Z 41%Z 60%Z Hlen)).
Defined.

(** [IM] with three sample sizes and a good parameter vector. *)
Lemma bad_sample_sizes_raise_first_witness :
  List.length [49; 41; 7]%Z <> 2%nat /\
  (model_fn M_IM [2; 3; 1; 1; 1] [49; 41; 7]%Z 60%Z
     : @Model Z (list R) (list R * (Z * Z)))
    = Raise (unpack_error 2 [49; 41; 7]%Z).
Proof.
  assert (Hns : List.length [49; 41; 7]%Z <> 2%nat) by (simpl; lia).
  split; [exact Hns |].
  exact (proj1 (@bad_sample_sizes_raise_first Z (list R) (list R * (Z * Z))
                  recording_engine M_IM [2; 3; 1; 1; 1] [49; 41; 7]%Z 60%Z
                  Hns)).
Defined.

(** [SC] on a vector of four parameters: two short of its six. *)
Lemma wrong_length_error_message_witness :
  List.length [2; 3; 1; 1] <> arity M_SC /\
  (model_fn M_SC [2; 3; 1; 1] [49; 41]%Z 60%Z
     : @Model Z (list R) (list R * (Z * Z)))
    = Raise (if Nat.ltb (List.length [2; 3; 1; 1]) (arity M_SC)
             then ValueError_need_more (List.length [2; 3; 1; 1])
             else ValueError_too_many).
Proof.
  assert (Hlen : List.length [2; 3; 1; 1] <> arity M_SC) by (simpl; lia).
  split; [exact Hlen |].
  exact (@wrong_length_error_message Z (list R) (list R * (Z * Z))
           M_SC [2; 3; 1; 1] 49%Z 41%Z 60%Z Hlen).
Defined.

(** [AMex]: first sizes 2 and 5, last duration 9. *)
Lemma parameter_positions_witness :
  List.length [2; 5; 3; 4; 1; 1; 7; 8; 9] = arity M_AMex /\
  exists (first : Epoch) (rest : list Epoch),
    epochs (trace recording_engine
              (model_fn M_AMex [2; 5; 3; 4; 1; 1; 7; 8; 9] [49; 41]%Z 60%Z))
      = first :: rest /\
    size1 first = Const (nth 0 [2; 5; 3; 4; 1; 1; 7; 8; 9] 0) /\
    size2 first = Const (nth 1 [2; 5; 3; 4; 1; 1; 7; 8; 9] 0) /\
    duration (last (first :: rest) first)
      = last [2; 5; 3; 4; 1; 1; 7; 8; 9] 0.
Proof.
  assert (Hlen : List.length [2; 5; 3; 4; 1; 1; 7; 8; 9] = arity M_AMex)
    by reflexivity.
  split; [exact Hlen |].
  exact (@parameter_positions Z (list R) (list R * (Z * Z))
           recording_engine M_AMex [2; 5; 3; 4; 1; 1; 7; 8; 9]
           49%Z 41%Z 60%Z Hlen).
Defined.

(** The model of the script on a vector of nine parameters. *)
Lemma script_vector_fits_model_witness :
  List.length [2; 2; 3; 4; 1; 1; 1; 1; 1] = List.length p0 /\
  exists fs : list R * (Z * Z),
    run recording_engine
      (func [2; 2; 3; 4; 1; 1; 1; 1; 1] [49; 41]%Z 60%Z) = inr fs.
Proof.
  assert (Hlen : List.length [2; 2; 3; 4; 1; 1; 1; 1; 1] = List.length p0)
    by reflexivity.
  split; [exact Hlen |].
  exact (proj2 (proj2 (proj2 (proj2 (proj2 (proj2
           (@script_vector_fits_model Z (list R) (list R * (Z * Z))
              recording_engine [2; 2; 3; 4; 1; 1; 1; 1; 1]
              49%Z 41%Z 60%Z Hlen))))))).
Defined.

(** [PSCex]: four epochs at constant sizes, then growth for [Te = 9]. *)
Lemma growth_only_in_last_epoch_witness :
  List.length [2; 5; 3; 4; 1; 1; 7; 8; 9] = arity M_PSCex /\
  Forall constant_sizes
    (removelast (epochs (trace recording_engine
       (model_fn M_PSCex [2; 5; 3; 4; 1; 1; 7; 8; 9] [49; 41]%Z 60%Z)))).
Proof.
  assert (Hlen : List.length [2; 5; 3; 4; 1; 1; 7; 8; 9] = arity M_PSCex)
    by reflexivity.
  split; [exact Hlen |].
  exact (proj1 (@growth_only_in_last_epoch Z (list R) (list R * (Z * Z))
                  recording_engine M_PSCex [2; 5; 3; 4; 1; 1; 7; 8; 9]
                  49%Z 41%Z 60%Z Hlen)).
Defined.

(** [SCex] with the rates 5 and 6. *)
Lemma one_migration_regime_witness :
  List.length [2; 2; 3; 4; 5; 6; 1; 1; 1] = arity M_SCex /\
  Forall (fun ep =>
            isolated ep \/
            (mig12 ep
               = nth (migration_index M_SCex) [2; 2; 3; 4; 5; 6; 1; 1; 1] 0 /\
             mig21 ep
               = nth (S (migration_index M_SCex))
                   [2; 2; 3; 4; 5; 6; 1; 1; 1] 0))
    (epochs (trace recording_engine
       (model_fn M_SCex [2; 2; 3; 4; 5; 6; 1; 1; 1] [49; 41]%Z 60%Z))).
Proof.
  assert (Hlen : List.length [2; 2; 3; 4; 5; 6; 1; 1; 1] = arity M_SCex)
    by reflexivity.
  split; [exact Hlen |].
  exact (@one_migration_regime Z (list R) (list R * (Z * Z))
           recording_engine M_SCex [2; 2; 3; 4; 5; 6; 1; 1; 1]
           49%Z 41%Z 60%Z Hlen).
Defined.
